(** * logrus: the Logger of package logrus (logger.go)

    A shallow embedding of [logger.go]: the [Logger] struct, its
    constructor [New], the six threshold predicates and the convenience
    methods that forward to an [Entry].  The file [logger.go] is the only
    source of the package at hand; the declarations it uses from the rest
    of the package (the [Level] constants, [Fields], [Formatter],
    [levelHooks], and the whole of [Entry]) are modelled from the
    specification and marked as such. *)

From stdpp Require Import gmap strings list fin_maps pretty.
From Stdlib Require Import NArith Lia.

Local Open Scope N_scope.

(** ** Declarations used by logger.go *)

(** Modelled from the spec: the declaration [type Level uint8] is not in
    logger.go.  A level is an unsigned ordinal; only comparisons are ever
    applied to it, so no wrap-around arises. *)
Definition Level : Type := N.

(** The range of the unsigned 8-bit carrier of [Level]. *)
Definition is_uint8 (l : Level) : Prop := l < 256.

(** Modelled from the spec: the six named points of [Level], declared
    outside logger.go.  The severity order is Panic > Fatal > Error > Warn
    > Info > Debug; logger.go tests [logger.Level >= InfoLevel] for "the
    level is at least info" and documents that the default, Info, lets
    Info, Warn, Error and Fatal through, so the ordinals descend in
    severity: consecutive constants from zero, the most severe first. *)
Definition PanicLevel : Level := 0.
Definition FatalLevel : Level := 1.
Definition ErrorLevel : Level := 2.
Definition WarnLevel : Level := 3.
Definition InfoLevel : Level := 4.
Definition DebugLevel : Level := 5.

(** Go's [interface{}] values that reach the logger as arguments or as
    field values. *)
Inductive Value : Type :=
  | VNil
  | VBool (b : bool)
  | VInt (z : Z)
  | VString (s : string).

(** Modelled from the spec: [Fields], a mapping from string keys to
    arbitrary values. *)
Abbreviation Fields := (gmap string Value).

(** An [io.Writer]: the sink is known to the core only by its identity. *)
Inductive Writer : Type :=
  | Stdout
  | Stderr
  | OtherWriter (fd : N).

(** Modelled from the spec: the [Formatter] interface, with the two
    formatters the package ships and any other implementation. *)
Inductive Formatter : Type :=
  | TextFormatter
  | JSONFormatter
  | OtherFormatter (id : N).

(** Modelled from the spec: a hook object, known by its identity, and the
    registry [levelHooks] from a level to the hooks registered for it, in
    registration order. *)
Definition Hook : Type := N.
Abbreviation levelHooks := (gmap N (list Hook)).

(** [sync.Mutex]; its zero value is unlocked. *)
Inductive Mutex : Type :=
  | Unlocked
  | Locked.

(** ** logger.go *)

Module Logger.

(** [type Logger struct] *)
Record t : Type := mk {
  Out : Writer;
  Hooks : levelHooks;
  Formatter : Formatter;
  Level : Level;
  mu : Mutex
}.

(** [logger.Level >= DebugLevel], and likewise for the other five. *)
Definition IsDebug (logger : t) : bool := DebugLevel <=? Level logger.
Definition IsInfo (logger : t) : bool := InfoLevel <=? Level logger.
Definition IsWarn (logger : t) : bool := WarnLevel <=? Level logger.
Definition IsError (logger : t) : bool := ErrorLevel <=? Level logger.
Definition IsFatal (logger : t) : bool := FatalLevel <=? Level logger.
Definition IsPanic (logger : t) : bool := PanicLevel <=? Level logger.

(** *** The part of [Entry] that logger.go calls

    [Entry] and its methods live outside logger.go.  The methods of
    [Logger] below are written against this interface, one field per
    [Entry] function that logger.go mentions; [Action] is what a
    terminal logging call does (Go: a call without a return value). *)
Class EntryAPI (Entry Action : Type) : Type := {
  NewEntry : t -> Entry;
  Entry_WithField : Entry -> string -> Value -> Entry;
  Entry_WithFields : Entry -> Fields -> Entry;
  Entry_Debugf : Entry -> string -> list Value -> Action;
  Entry_Infof : Entry -> string -> list Value -> Action;
  Entry_Printf : Entry -> string -> list Value -> Action;
  Entry_Warnf : Entry -> string -> list Value -> Action;
  Entry_Errorf : Entry -> string -> list Value -> Action;
  Entry_Fatalf : Entry -> string -> list Value -> Action;
  Entry_Panicf : Entry -> string -> list Value -> Action;
  Entry_Debug : Entry -> list Value -> Action;
  Entry_Info : Entry -> list Value -> Action;
  Entry_Warn : Entry -> list Value -> Action;
  Entry_Error : Entry -> list Value -> Action;
  Entry_Fatal : Entry -> list Value -> Action;
  Entry_Panic : Entry -> list Value -> Action;
  Entry_Debugln : Entry -> list Value -> Action;
  Entry_Infoln : Entry -> list Value -> Action;
  Entry_Println : Entry -> list Value -> Action;
  Entry_Warnln : Entry -> list Value -> Action;
  Entry_Errorln : Entry -> list Value -> Action;
  Entry_Fatalln : Entry -> list Value -> Action;
  Entry_Panicln : Entry -> list Value -> Action
}.

Section Methods.
Context {Entry Action : Type} {api : EntryAPI Entry Action}.

(** [func (logger *Logger) WithField(key string, value interface{}) *Entry] *)
Definition WithField (logger : t) (key : string) (value : Value) : Entry :=
  Entry_WithField (NewEntry logger) key value.

(** [func (logger *Logger) WithFields(fields Fields) *Entry] *)
Definition WithFields (logger : t) (fields : Fields) : Entry :=
  Entry_WithFields (NewEntry logger) fields.

(** The formatted variants, in the order of logger.go. *)
Definition Debugf (logger : t) (format : string) (args : list Value) : Action :=
  Entry_Debugf (NewEntry logger) format args.
Definition Infof (logger : t) (format : string) (args : list Value) : Action :=
  Entry_Infof (NewEntry logger) format args.
Definition Printf (logger : t) (format : string) (args : list Value) : Action :=
  Entry_Printf (NewEntry logger) format args.
Definition Warnf (logger : t) (format : string) (args : list Value) : Action :=
  Entry_Warnf (NewEntry logger) format args.
Definition Warningf (logger : t) (format : string) (args : list Value) : Action :=
  Entry_Warnf (NewEntry logger) format args.
Definition Errorf (logger : t) (format : string) (args : list Value) : Action :=
  Entry_Errorf (NewEntry logger) format args.
Definition Fatalf (logger : t) (format : string) (args : list Value) : Action :=
  Entry_Fatalf (NewEntry logger) format args.
Definition Panicf (logger : t) (format : string) (args : list Value) : Action :=
  Entry_Panicf (NewEntry logger) format args.

(** The plain variants.  [Print] forwards to [Entry.Info]. *)
Definition Debug (logger : t) (args : list Value) : Action :=
  Entry_Debug (NewEntry logger) args.
Definition Info (logger : t) (args : list Value) : Action :=
  Entry_Info (NewEntry logger) args.
Definition Print (logger : t) (args : list Value) : Action :=
  Entry_Info (NewEntry logger) args.
Definition Warn (logger : t) (args : list Value) : Action :=
  Entry_Warn (NewEntry logger) args.
Definition Warning (logger : t) (args : list Value) : Action :=
  Entry_Warn (NewEntry logger) args.
Definition Error (logger : t) (args : list Value) : Action :=
  Entry_Error (NewEntry logger) args.
Definition Fatal (logger : t) (args : list Value) : Action :=
  Entry_Fatal (NewEntry logger) args.
Definition Panic (logger : t) (args : list Value) : Action :=
  Entry_Panic (NewEntry logger) args.

(** The line variants. *)
Definition Debugln (logger : t) (args : list Value) : Action :=
  Entry_Debugln (NewEntry logger) args.
Definition Infoln (logger : t) (args : list Value) : Action :=
  Entry_Infoln (NewEntry logger) args.
Definition Println (logger : t) (args : list Value) : Action :=
  Entry_Println (NewEntry logger) args.
Definition Warnln (logger : t) (args : list Value) : Action :=
  Entry_Warnln (NewEntry logger) args.
Definition Warningln (logger : t) (args : list Value) : Action :=
  Entry_Warnln (NewEntry logger) args.
Definition Errorln (logger : t) (args : list Value) : Action :=
  Entry_Errorln (NewEntry logger) args.
Definition Fatalln (logger : t) (args : list Value) : Action :=
  Entry_Fatalln (NewEntry logger) args.
Definition Panicln (logger : t) (args : list Value) : Action :=
  Entry_Panicln (NewEntry logger) args.

(** The eight method names and the three flavours of each, to quantify
    over the twenty-four terminal methods at once. *)
Inductive Name : Type :=
  | NDebug | NInfo | NPrint | NWarn | NWarning | NError | NFatal | NPanic.

Inductive Flavor : Type :=
  | Plain | Formatted | Line.

(** [call n f logger format args] is the method of logger.go named [n] in
    flavour [f]; only the formatted flavour takes [format]. *)
Definition call (n : Name) (f : Flavor) (logger : t)
    (format : string) (args : list Value) : Action :=
  match n, f with
  | NDebug, Plain => Debug logger args
  | NDebug, Formatted => Debugf logger format args
  | NDebug, Line => Debugln logger args
  | NInfo, Plain => Info logger args
  | NInfo, Formatted => Infof logger format args
  | NInfo, Line => Infoln logger args
  | NPrint, Plain => Print logger args
  | NPrint, Formatted => Printf logger format args
  | NPrint, Line => Println logger args
  | NWarn, Plain => Warn logger args
  | NWarn, Formatted => Warnf logger format args
  | NWarn, Line => Warnln logger args
  | NWarning, Plain => Warning logger args
  | NWarning, Formatted => Warningf logger format args
  | NWarning, Line => Warningln logger args
  | NError, Plain => Error logger args
  | NError, Formatted => Errorf logger format args
  | NError, Line => Errorln logger args
  | NFatal, Plain => Fatal logger args
  | NFatal, Formatted => Fatalf logger format args
  | NFatal, Line => Fatalln logger args
  | NPanic, Plain => Panic logger args
  | NPanic, Formatted => Panicf logger format args
  | NPanic, Line => Panicln logger args
  end.

End Methods.

End Logger.

(** [func New() *Logger] *)
Definition New : Logger.t :=
  {| Logger.Out := Stdout;
     Logger.Formatter := TextFormatter;
     Logger.Hooks := ∅;
     Logger.Level := InfoLevel;
     Logger.mu := Unlocked |}.

(** ** The entry (outside logger.go) *)

Module Entry.

Local Abbreviation level_t := Level (only parsing).

(** Modelled from the spec: the [Entry] struct is not in logger.go.  One
    in-flight log record: the owning logger, the fields accumulated so
    far, a message, a level and a timestamp. *)
Record t : Type := mk {
  Logger : Logger.t;
  Data : Fields;
  Message : string;
  Level : Level;
  Time : N
}.

(** What a failing collaborator reports on the fallback channel. *)
Inductive Failure : Type :=
  | FormatError (err : string)
  | HookError (h : Hook) (err : string)
  | WriteError (err : string).

(** The observable steps of a terminal call, in the order they happen. *)
Inductive Event : Type :=
  | EvFormat (f : Formatter) (e : t)
  | EvFire (h : Hook) (e : t)
  | EvWrite (out : Writer) (bytes : string)
  | EvReport (f : Failure).

(** The world a call runs in: what has happened so far, and the time. *)
Record World : Type := mkWorld {
  trace : list Event;
  clock : N
}.

(** How a terminal call hands control back: it returns, or the process
    exits (Fatal), or the stack unwinds with a payload (Panic). *)
Inductive Control : Type :=
  | Done
  | Exited
  | Unwound (payload : string).

Definition Action : Type := World -> Control * World.

(** The collaborators behind the narrow interfaces of the core: Go's
    [fmt.Sprint], [fmt.Sprintf] and [fmt.Sprintln]; the formatters
    ([format] yields the bytes or an error, [degraded] the best-effort
    bytes of a record whose formatting failed); the hooks; the sinks. *)
Record Env : Type := mkEnv {
  Sprint : list Value -> string;
  Sprintf : string -> list Value -> string;
  Sprintln : list Value -> string;
  format : Formatter -> t -> string + string;
  degraded : t -> string;
  fire : Hook -> t -> option string;
  write : Writer -> string -> option string
}.

(** Modelled from the spec: [NewEntry] is not in logger.go.  A fresh
    entry bound to the logger, with no fields and an empty message; level
    and time are fixed only when a terminal call finalizes the entry. *)
Definition NewEntry (logger : Logger.t) : t :=
  {| Logger := logger; Data := ∅; Message := ""; Level := PanicLevel; Time := 0 |}.

(** Modelled from the spec: [Entry.WithField] is not in logger.go.  A new
    entry whose fields are the receiver's with [key] set to [value]; the
    receiver is left as it was. *)
Definition WithField (entry : t) (key : string) (value : Value) : t :=
  {| Logger := Logger entry; Data := <[key := value]> (Data entry);
     Message := Message entry; Level := Level entry; Time := Time entry |}.

(** Modelled from the spec: [Entry.WithFields] is not in logger.go.  The
    keys of [fields] take precedence over the receiver's. *)
Definition WithFields (entry : t) (fields : Fields) : t :=
  {| Logger := Logger entry; Data := fields ∪ Data entry;
     Message := Message entry; Level := Level entry; Time := Time entry |}.

(** Modelled from the spec: [isAtLeast(level, threshold)] of the level
    component.  The ordinals descend in severity, so a level is at least
    as severe as the threshold when its ordinal is not above it. *)
Definition isAtLeast (level threshold : level_t) : bool := level <=? threshold.

(** One more event at the end of the trace. *)
Definition emit (ev : Event) (w : World) : World :=
  {| trace := trace w ++ [ev]; clock := clock w |}.

(** The hooks registered for a level, in registration order. *)
Definition hooksFor (logger : Logger.t) (level : level_t) : list Hook :=
  default [] (Logger.Hooks logger !! level).

(** Modelled from the spec: step 2 of the terminal call.  Stamp the
    current time, fix message and level. *)
Definition finalize (entry : t) (level : level_t) (msg : string) (w : World) : t :=
  {| Logger := Logger entry; Data := Data entry;
     Message := msg; Level := level; Time := clock w |}.

Section WithEnv.
Context (env : Env).

(** Modelled from the spec: step 3.  The formatter is invoked; when it
    fails the failure goes to the fallback channel and the call goes on
    with a best-effort representation. *)
Definition render (entry : t) (w : World) : string * World :=
  let f := Logger.Formatter (Logger entry) in
  let w1 := emit (EvFormat f entry) w in
  match format env f entry with
  | inl bytes => (bytes, w1)
  | inr err => (degraded env entry, emit (EvReport (FormatError err)) w1)
  end.

(** Modelled from the spec: step 4.  Every hook fires, in registration
    order; a failure is reported and stops nothing. *)
Fixpoint fireAll (hooks : list Hook) (entry : t) (w : World) : World :=
  match hooks with
  | [] => w
  | h :: rest =>
      let w1 := emit (EvFire h entry) w in
      let w2 := match fire env h entry with
                | None => w1
                | Some err => emit (EvReport (HookError h err)) w1
                end in
      fireAll rest entry w2
  end.

(** Modelled from the spec: step 5.  The bytes go to the logger's sink; a
    failure of the sink is reported.  The logger's lock is held around
    this step, which a sequential run cannot observe. *)
Definition writeOut (logger : Logger.t) (bytes : string) (w : World) : World :=
  let out := Logger.Out logger in
  let w1 := emit (EvWrite out bytes) w in
  match write env out bytes with
  | None => w1
  | Some err => emit (EvReport (WriteError err)) w1
  end.

(** Modelled from the spec: step 6.  Fatal ends the process, Panic
    unwinds with the message, any other level returns. *)
Definition conclude (level : level_t) (msg : string) : Control :=
  if level =? FatalLevel then Exited
  else if level =? PanicLevel then Unwound msg
  else Done.

(** Modelled from the spec: steps 2 to 6 of the terminal call, once the
    gate is passed. *)
Definition dispatch (entry : t) (level : level_t) (msg : string) : Action :=
  fun w =>
    let entry' := finalize entry level msg w in
    let '(bytes, w1) := render entry' w in
    let w2 := fireAll (hooksFor (Logger entry) level) entry' w1 in
    let w3 := writeOut (Logger entry) bytes w2 in
    (conclude level msg, w3).

(** Modelled from the spec: the terminal call [log(level, message)].
    Step 1 is the gate: below the threshold nothing happens at all. *)
Definition log (entry : t) (level : level_t) (msg : string) : Action :=
  fun w =>
    if isAtLeast level (Logger.Level (Logger entry))
    then dispatch entry level msg w
    else (Done, w).

(** Modelled from the spec: the convenience methods of [Entry], thin
    wrappers that build the message by the rule of their flavour and make
    the terminal call at their level. *)
Definition Debug (entry : t) (args : list Value) : Action :=
  log entry DebugLevel (Sprint env args).
Definition Debugf (entry : t) (fmt : string) (args : list Value) : Action :=
  log entry DebugLevel (Sprintf env fmt args).
Definition Debugln (entry : t) (args : list Value) : Action :=
  log entry DebugLevel (Sprintln env args).
Definition Info (entry : t) (args : list Value) : Action :=
  log entry InfoLevel (Sprint env args).
Definition Infof (entry : t) (fmt : string) (args : list Value) : Action :=
  log entry InfoLevel (Sprintf env fmt args).
Definition Infoln (entry : t) (args : list Value) : Action :=
  log entry InfoLevel (Sprintln env args).
Definition Warn (entry : t) (args : list Value) : Action :=
  log entry WarnLevel (Sprint env args).
Definition Warnf (entry : t) (fmt : string) (args : list Value) : Action :=
  log entry WarnLevel (Sprintf env fmt args).
Definition Warnln (entry : t) (args : list Value) : Action :=
  log entry WarnLevel (Sprintln env args).
Definition Error (entry : t) (args : list Value) : Action :=
  log entry ErrorLevel (Sprint env args).
Definition Errorf (entry : t) (fmt : string) (args : list Value) : Action :=
  log entry ErrorLevel (Sprintf env fmt args).
Definition Errorln (entry : t) (args : list Value) : Action :=
  log entry ErrorLevel (Sprintln env args).
Definition Fatal (entry : t) (args : list Value) : Action :=
  log entry FatalLevel (Sprint env args).
Definition Fatalf (entry : t) (fmt : string) (args : list Value) : Action :=
  log entry FatalLevel (Sprintf env fmt args).
Definition Fatalln (entry : t) (args : list Value) : Action :=
  log entry FatalLevel (Sprintln env args).
Definition Panic (entry : t) (args : list Value) : Action :=
  log entry PanicLevel (Sprint env args).
Definition Panicf (entry : t) (fmt : string) (args : list Value) : Action :=
  log entry PanicLevel (Sprintf env fmt args).
Definition Panicln (entry : t) (args : list Value) : Action :=
  log entry PanicLevel (Sprintln env args).

(** Modelled from the spec: the [Warning] names of [Entry] are aliases of
    the [Warn] ones. *)
Definition Warning (entry : t) (args : list Value) : Action :=
  Warn entry args.
Definition Warningf (entry : t) (fmt : string) (args : list Value) : Action :=
  Warnf entry fmt args.
Definition Warningln (entry : t) (args : list Value) : Action :=
  Warnln entry args.

(** Modelled from the spec: the [Print] names of [Entry] record level
    Info and do not pass through the gate. *)
Definition Print (entry : t) (args : list Value) : Action :=
  dispatch entry InfoLevel (Sprint env args).
Definition Printf (entry : t) (fmt : string) (args : list Value) : Action :=
  dispatch entry InfoLevel (Sprintf env fmt args).
Definition Println (entry : t) (args : list Value) : Action :=
  dispatch entry InfoLevel (Sprintln env args).

(** The like-named [Entry] method of each of the twenty-four names. *)
Definition call (n : Logger.Name) (f : Logger.Flavor) (entry : t)
    (fmt : string) (args : list Value) : Action :=
  match n, f with
  | Logger.NDebug, Logger.Plain => Debug entry args
  | Logger.NDebug, Logger.Formatted => Debugf entry fmt args
  | Logger.NDebug, Logger.Line => Debugln entry args
  | Logger.NInfo, Logger.Plain => Info entry args
  | Logger.NInfo, Logger.Formatted => Infof entry fmt args
  | Logger.NInfo, Logger.Line => Infoln entry args
  | Logger.NPrint, Logger.Plain => Print entry args
  | Logger.NPrint, Logger.Formatted => Printf entry fmt args
  | Logger.NPrint, Logger.Line => Println entry args
  | Logger.NWarn, Logger.Plain => Warn entry args
  | Logger.NWarn, Logger.Formatted => Warnf entry fmt args
  | Logger.NWarn, Logger.Line => Warnln entry args
  | Logger.NWarning, Logger.Plain => Warning entry args
  | Logger.NWarning, Logger.Formatted => Warningf entry fmt args
  | Logger.NWarning, Logger.Line => Warningln entry args
  | Logger.NError, Logger.Plain => Error entry args
  | Logger.NError, Logger.Formatted => Errorf entry fmt args
  | Logger.NError, Logger.Line => Errorln entry args
  | Logger.NFatal, Logger.Plain => Fatal entry args
  | Logger.NFatal, Logger.Formatted => Fatalf entry fmt args
  | Logger.NFatal, Logger.Line => Fatalln entry args
  | Logger.NPanic, Logger.Plain => Panic entry args
  | Logger.NPanic, Logger.Formatted => Panicf entry fmt args
  | Logger.NPanic, Logger.Line => Panicln entry args
  end.

(** The entry of the specification behind the interface of logger.go. *)
#[export] Instance api : Logger.EntryAPI t Action := {|
  Logger.NewEntry := NewEntry;
  Logger.Entry_WithField := WithField;
  Logger.Entry_WithFields := WithFields;
  Logger.Entry_Debugf := Debugf;
  Logger.Entry_Infof := Infof;
  Logger.Entry_Printf := Printf;
  Logger.Entry_Warnf := Warnf;
  Logger.Entry_Errorf := Errorf;
  Logger.Entry_Fatalf := Fatalf;
  Logger.Entry_Panicf := Panicf;
  Logger.Entry_Debug := Debug;
  Logger.Entry_Info := Info;
  Logger.Entry_Warn := Warn;
  Logger.Entry_Error := Error;
  Logger.Entry_Fatal := Fatal;
  Logger.Entry_Panic := Panic;
  Logger.Entry_Debugln := Debugln;
  Logger.Entry_Infoln := Infoln;
  Logger.Entry_Println := Println;
  Logger.Entry_Warnln := Warnln;
  Logger.Entry_Errorln := Errorln;
  Logger.Entry_Fatalln := Fatalln;
  Logger.Entry_Panicln := Panicln
|}.

End WithEnv.

End Entry.

(** ** The severity order of the specification *)

(** The six named levels. *)
Inductive Rank : Type :=
  | RPanic | RFatal | RError | RWarn | RInfo | RDebug.

(** The ordinal the package gives each named level. *)
Definition ordinal (r : Rank) : Level :=
  match r with
  | RPanic => PanicLevel
  | RFatal => FatalLevel
  | RError => ErrorLevel
  | RWarn => WarnLevel
  | RInfo => InfoLevel
  | RDebug => DebugLevel
  end.

(** The severity order in the words of the specification:
    Panic > Fatal > Error > Warn > Info > Debug. *)
Definition spec_severity (r : Rank) : nat :=
  match r with
  | RDebug => 0
  | RInfo => 1
  | RWarn => 2
  | RError => 3
  | RFatal => 4
  | RPanic => 5
  end.

(** A threshold [T] is at least as permissive as [L] when it is not more
    severe than [L]: it lets the events of level [L] through. *)
Definition at_least_as_permissive (T L : Rank) : Prop :=
  (spec_severity T <= spec_severity L)%nat.

(** [L] is strictly less severe than [T]. *)
Definition less_severe (L T : Rank) : Prop :=
  (spec_severity L < spec_severity T)%nat.

(** The predicate of logger.go named after a level. *)
Definition Is (r : Rank) : Logger.t -> bool :=
  match r with
  | RPanic => Logger.IsPanic
  | RFatal => Logger.IsFatal
  | RError => Logger.IsError
  | RWarn => Logger.IsWarn
  | RInfo => Logger.IsInfo
  | RDebug => Logger.IsDebug
  end.

(** A logger that differs from [New] in its threshold only. *)
Definition withLevel (level : Level) : Logger.t :=
  {| Logger.Out := Logger.Out New;
     Logger.Hooks := Logger.Hooks New;
     Logger.Formatter := Logger.Formatter New;
     Logger.Level := level;
     Logger.mu := Logger.mu New |}.

(** ** What a run shows *)

(** The entries handed to a formatter, the hooks fired, the writes made
    and the failures reported along a trace, each in order. *)
Definition formatted (tr : list Entry.Event) : list Entry.t :=
  omap (fun ev => match ev with Entry.EvFormat _ e => Some e | _ => None end) tr.

Definition fired (tr : list Entry.Event) : list (Hook * Entry.t) :=
  omap (fun ev => match ev with Entry.EvFire h e => Some (h, e) | _ => None end) tr.

Definition written (tr : list Entry.Event) : list (Writer * string) :=
  omap (fun ev => match ev with Entry.EvWrite out b => Some (out, b) | _ => None end) tr.

Definition reported (tr : list Entry.Event) : list Entry.Failure :=
  omap (fun ev => match ev with Entry.EvReport f => Some f | _ => None end) tr.

(** A call is suppressed when it returns at once and leaves the world as
    it found it: nothing formatted, fired, written or reported. *)
Definition suppressed (a : Entry.Action) (w : Entry.World) : Prop :=
  a w = (Entry.Done, w).

(** A call at [level] with message [msg] goes through on [logger] when it
    extends the trace by one formatting of the finalized entry, one firing
    of each hook registered for the level in registration order, and one
    write of the rendered bytes to the logger's sink. *)
Definition goes_through (env : Entry.Env) (a : Entry.Action) (logger : Logger.t)
    (level : Level) (msg : string) (w : Entry.World) : Prop :=
  let e := Entry.finalize (Entry.NewEntry logger) level msg w in
  let bytes := match Entry.format env (Logger.Formatter logger) e with
               | inl b => b
               | inr _ => Entry.degraded env e
               end in
  exists new,
    Entry.trace (snd (a w)) = Entry.trace w ++ new /\
    formatted new = [e] /\
    fired new = map (fun h => (h, e)) (Entry.hooksFor logger level) /\
    written new = [(Logger.Out logger, bytes)].

(** Along a stretch of trace, every failure of a formatter, a hook or a
    sink has its report on the fallback channel. *)
Definition failures_reported (env : Entry.Env) (new : list Entry.Event) : Prop :=
  (forall f e err, Entry.EvFormat f e ∈ new -> Entry.format env f e = inr err ->
     Entry.EvReport (Entry.FormatError err) ∈ new) /\
  (forall h e err, Entry.EvFire h e ∈ new -> Entry.fire env h e = Some err ->
     Entry.EvReport (Entry.HookError h err) ∈ new) /\
  (forall out b err, Entry.EvWrite out b ∈ new -> Entry.write env out b = Some err ->
     Entry.EvReport (Entry.WriteError err) ∈ new).

(** The events of firing a list of hooks on an entry. *)
Definition hookEvents (env : Entry.Env) (hooks : list Hook) (e : Entry.t) : list Entry.Event :=
  flat_map (fun h => Entry.EvFire h e ::
              match Entry.fire env h e with
              | None => []
              | Some err => [Entry.EvReport (Entry.HookError h err)]
              end) hooks.

(** The level a method name stands for; the Print names record Info. *)
Definition rank_of (n : Logger.Name) : Rank :=
  match n with
  | Logger.NDebug => RDebug
  | Logger.NInfo | Logger.NPrint => RInfo
  | Logger.NWarn | Logger.NWarning => RWarn
  | Logger.NError => RError
  | Logger.NFatal => RFatal
  | Logger.NPanic => RPanic
  end.

(** The message a flavour builds from its arguments. *)
Definition message (env : Entry.Env) (f : Logger.Flavor)
    (format : string) (args : list Value) : string :=
  match f with
  | Logger.Plain => Entry.Sprint env args
  | Logger.Formatted => Entry.Sprintf env format args
  | Logger.Line => Entry.Sprintln env args
  end.

(** ** Two environments to run the model in *)

Definition show (v : Value) : string :=
  match v with
  | VNil => "<nil>"
  | VBool true => "true"
  | VBool false => "false"
  | VInt z => pretty z
  | VString s => s
  end.

Definition newline : string := String (Ascii.ascii_of_nat 10) "".

(** Every collaborator succeeds. *)
Definition quiet_env : Entry.Env :=
  {| Entry.Sprint := fun args => String.concat " " (map show args);
     Entry.Sprintf := fun format args => format +:+ String.concat " " (map show args);
     Entry.Sprintln := fun args => String.concat " " (map show args) +:+ newline;
     Entry.format := fun _ e => inl (Entry.Message e +:+ newline);
     Entry.degraded := fun e => Entry.Message e;
     Entry.fire := fun _ _ => None;
     Entry.write := fun _ _ => None |}.

(** Every collaborator fails. *)
Definition failing_env : Entry.Env :=
  {| Entry.Sprint := Entry.Sprint quiet_env;
     Entry.Sprintf := Entry.Sprintf quiet_env;
     Entry.Sprintln := Entry.Sprintln quiet_env;
     Entry.format := fun _ _ => inr "cannot format";
     Entry.degraded := fun e => Entry.Message e;
     Entry.fire := fun _ _ => Some "hook down";
     Entry.write := fun _ _ => Some "sink closed" |}.

(** A world in which nothing has happened yet. *)
Definition world0 : Entry.World := {| Entry.trace := []; Entry.clock := 7 |}.

(** A logger like [New] with one hook on Error, two on Info. *)
Definition hooked (level : Level) : Logger.t :=
  {| Logger.Out := Stderr;
     Logger.Hooks := <[ErrorLevel := [11]]> (<[InfoLevel := [21; 22]]> ∅);
     Logger.Formatter := JSONFormatter;
     Logger.Level := level;
     Logger.mu := Unlocked |}.

(** ** An entry that only records how it is called *)

(** The functions of [Entry] that logger.go calls on a fresh entry. *)
Inductive EntryMethod : Type :=
  | EDebugf | EInfof | EPrintf | EWarnf | EErrorf | EFatalf | EPanicf
  | EDebug | EInfo | EWarn | EError | EFatal | EPanic
  | EDebugln | EInfoln | EPrintln | EWarnln | EErrorln | EFatalln | EPanicln.

(** One call as the entry sees it: which function, on the entry of which
    logger, with which format string (if any) and which arguments. *)
Record Call : Type := mkCall {
  method : EntryMethod;
  receiver : Logger.t;
  template : option string;
  arguments : list Value
}.

(** An implementation of the interface of logger.go that does nothing but
    say how it was called.  Its fresh entry is the logger itself. *)
Definition recorder : Logger.EntryAPI Logger.t Call :=
  {| Logger.NewEntry := fun logger => logger;
     Logger.Entry_WithField := fun e _ _ => e;
     Logger.Entry_WithFields := fun e _ => e;
     Logger.Entry_Debugf := fun e f a => mkCall EDebugf e (Some f) a;
     Logger.Entry_Infof := fun e f a => mkCall EInfof e (Some f) a;
     Logger.Entry_Printf := fun e f a => mkCall EPrintf e (Some f) a;
     Logger.Entry_Warnf := fun e f a => mkCall EWarnf e (Some f) a;
     Logger.Entry_Errorf := fun e f a => mkCall EErrorf e (Some f) a;
     Logger.Entry_Fatalf := fun e f a => mkCall EFatalf e (Some f) a;
     Logger.Entry_Panicf := fun e f a => mkCall EPanicf e (Some f) a;
     Logger.Entry_Debug := fun e a => mkCall EDebug e None a;
     Logger.Entry_Info := fun e a => mkCall EInfo e None a;
     Logger.Entry_Warn := fun e a => mkCall EWarn e None a;
     Logger.Entry_Error := fun e a => mkCall EError e None a;
     Logger.Entry_Fatal := fun e a => mkCall EFatal e None a;
     Logger.Entry_Panic := fun e a => mkCall EPanic e None a;
     Logger.Entry_Debugln := fun e a => mkCall EDebugln e None a;
     Logger.Entry_Infoln := fun e a => mkCall EInfoln e None a;
     Logger.Entry_Println := fun e a => mkCall EPrintln e None a;
     Logger.Entry_Warnln := fun e a => mkCall EWarnln e None a;
     Logger.Entry_Errorln := fun e a => mkCall EErrorln e None a;
     Logger.Entry_Fatalln := fun e a => mkCall EFatalln e None a;
     Logger.Entry_Panicln := fun e a => mkCall EPanicln e None a |}.

(** Two methods of the logger are aliases when they have the same flavour
    and either the same name, or the names Warn and Warning, or, in the
    plain flavour only, the names Info and Print. *)
Definition aliases (n1 : Logger.Name) (f1 : Logger.Flavor)
    (n2 : Logger.Name) (f2 : Logger.Flavor) : Prop :=
  f1 = f2 /\
  (n1 = n2 \/
   (n1 = Logger.NWarn /\ n2 = Logger.NWarning) \/
   (n1 = Logger.NWarning /\ n2 = Logger.NWarn) \/
   (f1 = Logger.Plain /\
    ((n1 = Logger.NInfo /\ n2 = Logger.NPrint) \/
     (n1 = Logger.NPrint /\ n2 = Logger.NInfo)))).

(** ** What a call owes its caller and the fallback channel *)

(** Whether a terminal method of the logger gets past the gate.  Printf
    and Println reach the Print names of the entry, which have no gate;
    every other method, Print among them, makes a gated call at the level
    of its name. *)
Definition passes (n : Logger.Name) (f : Logger.Flavor) (logger : Logger.t) : bool :=
  match n, f with
  | Logger.NPrint, Logger.Formatted => true
  | Logger.NPrint, Logger.Line => true
  | _, _ => ordinal (rank_of n) <=? Logger.Level logger
  end.

(** The bytes that reach the sink for a finalized entry: the formatter's,
    or the best-effort ones when the formatter fails. *)
Definition rendered (env : Entry.Env) (logger : Logger.t) (e : Entry.t) : string :=
  match Entry.format env (Logger.Formatter logger) e with
  | inl b => b
  | inr _ => Entry.degraded env e
  end.

(** The reports one call owes the fallback channel: the formatter's
    failure if it fails, then one per failing hook of the level in
    registration order, then the sink's failure if the write fails. *)
Definition owed_reports (env : Entry.Env) (logger : Logger.t) (level : Level)
    (e : Entry.t) : list Entry.Failure :=
  match Entry.format env (Logger.Formatter logger) e with
  | inl _ => []
  | inr err => [Entry.FormatError err]
  end ++
  omap (fun h => Entry.HookError h <$> Entry.fire env h e)
       (Entry.hooksFor logger level) ++
  match Entry.write env (Logger.Out logger) (rendered env logger e) with
  | None => []
  | Some err => [Entry.WriteError err]
  end.

(** How a call that got past the gate ends: Fatal ends the process, Panic
    unwinds with the message, every other name returns. *)
Definition ending (n : Logger.Name) (msg : string) : Entry.Control :=
  match n with
  | Logger.NFatal => Entry.Exited
  | Logger.NPanic => Entry.Unwound msg
  | _ => Entry.Done
  end.

(** ** The terminal call of the entry *)

Section Dispatch.
Context (env : Entry.Env).

Lemma fireAll_trace (hooks : list Hook) (e : Entry.t) (w : Entry.World) :
  Entry.trace (Entry.fireAll env hooks e w) = Entry.trace w ++ hookEvents env hooks e /\
  Entry.clock (Entry.fireAll env hooks e w) = Entry.clock w.
Proof.
  revert w. induction hooks as [|h rest IH]; intros w; cbn.
  - now rewrite app_nil_r.
  - destruct (Entry.fire env h e) as [err|];
      (split; [rewrite (proj1 (IH _)) | rewrite (proj2 (IH _))]);
      cbn; rewrite <- ?app_assoc; reflexivity.
Qed.

Lemma hookEvents_formatted (hooks : list Hook) (e : Entry.t) :
  formatted (hookEvents env hooks e) = [].
Proof.
  induction hooks as [|h rest IH]; [reflexivity|].
  cbn. destruct (Entry.fire env h e); cbn; exact IH.
Qed.

Lemma hookEvents_written (hooks : list Hook) (e : Entry.t) :
  written (hookEvents env hooks e) = [].
Proof.
  induction hooks as [|h rest IH]; [reflexivity|].
  cbn. destruct (Entry.fire env h e); cbn; exact IH.
Qed.

Lemma hookEvents_fired (hooks : list Hook) (e : Entry.t) :
  fired (hookEvents env hooks e) = map (fun h => (h, e)) hooks.
Proof.
  induction hooks as [|h rest IH]; [reflexivity|].
  cbn. destruct (Entry.fire env h e); cbn; now rewrite <- IH.
Qed.

Lemma hookEvents_elem (hooks : list Hook) (e : Entry.t) (ev : Entry.Event) :
  ev ∈ hookEvents env hooks e <->
  exists h, h ∈ hooks /\
    (ev = Entry.EvFire h e \/
     exists err, Entry.fire env h e = Some err /\
                 ev = Entry.EvReport (Entry.HookError h err)).
Proof.
  unfold hookEvents. rewrite list_elem_of_In, in_flat_map.
  split; intros (h & Hh & Hev); exists h.
  - apply list_elem_of_In in Hh. split; [exact Hh|].
    destruct Hev as [<- | Hev]; [now left|]. right.
    destruct (Entry.fire env h e) as [err|]; [|destruct Hev].
    destruct Hev as [<- | []]. now exists err.
  - split; [now apply list_elem_of_In|].
    destruct Hev as [-> | (err & Hf & ->)]; [now left|].
    right. rewrite Hf. now left.
Qed.

(** The stretch of trace one terminal call adds once past the gate. *)
Lemma dispatch_trace (entry : Entry.t) (level : Level) (msg : string) (w : Entry.World) :
  let e := Entry.finalize entry level msg w in
  let f := Logger.Formatter (Entry.Logger entry) in
  let out := Logger.Out (Entry.Logger entry) in
  let bytes := match Entry.format env f e with
               | inl b => b
               | inr _ => Entry.degraded env e
               end in
  Entry.trace (snd (Entry.dispatch env entry level msg w)) =
    Entry.trace w ++
      (Entry.EvFormat f e ::
         match Entry.format env f e with
         | inl _ => []
         | inr err => [Entry.EvReport (Entry.FormatError err)]
         end) ++
      hookEvents env (Entry.hooksFor (Entry.Logger entry) level) e ++
      (Entry.EvWrite out bytes ::
         match Entry.write env out bytes with
         | None => []
         | Some err => [Entry.EvReport (Entry.WriteError err)]
         end).
Proof.
  cbv zeta. unfold Entry.dispatch, Entry.render, Entry.writeOut.
  cbn [Entry.Logger Entry.finalize].
  destruct (Entry.format env _ _) as [b|err]; cbn [snd];
    match goal with
    | |- context [Entry.write env ?o ?b] => destruct (Entry.write env o b)
    end;
    cbn [Entry.trace Entry.emit]; rewrite (proj1 (fireAll_trace _ _ _));
    cbn [Entry.trace Entry.emit]; rewrite <- ?app_assoc; reflexivity.
Qed.

Lemma dispatch_control (entry : Entry.t) (level : Level) (msg : string) (w : Entry.World) :
  fst (Entry.dispatch env entry level msg w) = Entry.conclude level msg.
Proof.
  unfold Entry.dispatch. destruct (Entry.render env _ w). reflexivity.
Qed.

Lemma dispatch_goes_through (logger : Logger.t) (level : Level) (msg : string)
    (w : Entry.World) :
  goes_through env (Entry.dispatch env (Entry.NewEntry logger) level msg)
    logger level msg w.
Proof.
  unfold goes_through. cbv zeta.
  eexists. split; [apply dispatch_trace|].
  cbn [Entry.Logger Entry.NewEntry].
  unfold formatted, fired, written.
  rewrite !omap_app.
  fold (formatted (hookEvents env (Entry.hooksFor logger level)
          (Entry.finalize (Entry.NewEntry logger) level msg w))).
  fold (fired (hookEvents env (Entry.hooksFor logger level)
          (Entry.finalize (Entry.NewEntry logger) level msg w))).
  fold (written (hookEvents env (Entry.hooksFor logger level)
          (Entry.finalize (Entry.NewEntry logger) level msg w))).
  rewrite hookEvents_formatted, hookEvents_fired, hookEvents_written.
  destruct (Entry.format env _ _); destruct (Entry.write env _ _); cbn;
    rewrite ?app_nil_r; auto.
Qed.

Lemma dispatch_failures_reported (entry : Entry.t) (level : Level) (msg : string)
    (w : Entry.World) :
  exists new,
    Entry.trace (snd (Entry.dispatch env entry level msg w)) = Entry.trace w ++ new /\
    new <> [] /\
    failures_reported env new.
Proof.
  eexists. split; [apply dispatch_trace|]. split; [discriminate|].
  cbv zeta.
  set (e := Entry.finalize entry level msg w).
  set (f := Logger.Formatter (Entry.Logger entry)).
  set (out := Logger.Out (Entry.Logger entry)).
  set (hooks := Entry.hooksFor (Entry.Logger entry) level).
  repeat split.
  - intros f' e' err Hin Hfail.
    rewrite !elem_of_app, hookEvents_elem in Hin.
    destruct Hin as [Hin | [(h & _ & [Hh | (x & _ & Hh)]) | Hin]];
      try discriminate Hh.
    + apply elem_of_cons in Hin as [Heq | Hin].
      * injection Heq as -> ->. rewrite Hfail.
        apply elem_of_app. left. right. left.
      * destruct (Entry.format env f e);
          [apply elem_of_nil in Hin; destruct Hin|].
        apply list_elem_of_singleton in Hin. discriminate Hin.
    + apply elem_of_cons in Hin as [Heq | Hin]; [discriminate Heq|].
      destruct (Entry.write env out _);
        [apply list_elem_of_singleton in Hin; discriminate Hin
        |apply elem_of_nil in Hin; destruct Hin].
  - intros h' e' err Hin Hfail.
    rewrite !elem_of_app, hookEvents_elem in Hin.
    destruct Hin as [Hin | [(h & Hh & [Heq | (x & _ & Heq)]) | Hin]];
      try discriminate Heq.
    + apply elem_of_cons in Hin as [Heq | Hin]; [discriminate Heq|].
      destruct (Entry.format env f e);
        [apply elem_of_nil in Hin; destruct Hin|].
      apply list_elem_of_singleton in Hin. discriminate Hin.
    + injection Heq as -> ->.
      rewrite !elem_of_app. right. left.
      apply hookEvents_elem. exists h. split; [exact Hh|].
      right. now exists err.
    + apply elem_of_cons in Hin as [Heq | Hin]; [discriminate Heq|].
      destruct (Entry.write env out _);
        [apply list_elem_of_singleton in Hin; discriminate Hin
        |apply elem_of_nil in Hin; destruct Hin].
  - intros out' b err Hin Hfail.
    rewrite !elem_of_app, hookEvents_elem in Hin.
    destruct Hin as [Hin | [(h & _ & [Hh | (x & _ & Hh)]) | Hin]];
      try discriminate Hh.
    + apply elem_of_cons in Hin as [Heq | Hin]; [discriminate Heq|].
      destruct (Entry.format env f e);
        [apply elem_of_nil in Hin; destruct Hin|].
      apply list_elem_of_singleton in Hin. discriminate Hin.
    + apply elem_of_cons in Hin as [Heq | Hin].
      * injection Heq as -> ->. rewrite Hfail.
        rewrite !elem_of_app. right. right. right. left.
      * destruct (Entry.write env out _);
          [apply list_elem_of_singleton in Hin; discriminate Hin
          |apply elem_of_nil in Hin; destruct Hin].
Qed.

Lemma dispatch_not_suppressed (entry : Entry.t) (level : Level) (msg : string)
    (w : Entry.World) :
  ~ suppressed (Entry.dispatch env entry level msg) w.
Proof.
  unfold suppressed. intros Heq.
  destruct (dispatch_failures_reported entry level msg w) as (new & Ht & Hne & _).
  rewrite Heq in Ht. cbn in Ht.
  apply (f_equal length) in Ht. rewrite length_app in Ht.
  destruct new; [congruence | cbn in Ht; lia].
Qed.

(** Step 1: the gate of the terminal call. *)
Lemma log_below_threshold (entry : Entry.t) (level : Level) (msg : string)
    (w : Entry.World) :
  Entry.isAtLeast level (Logger.Level (Entry.Logger entry)) = false ->
  Entry.log env entry level msg w = (Entry.Done, w).
Proof. unfold Entry.log. now intros ->. Qed.

Lemma log_past_threshold (entry : Entry.t) (level : Level) (msg : string)
    (w : Entry.World) :
  Entry.isAtLeast level (Logger.Level (Entry.Logger entry)) = true ->
  Entry.log env entry level msg w = Entry.dispatch env entry level msg w.
Proof. unfold Entry.log. now intros ->. Qed.


End Dispatch.

(** ** The threshold predicates *)

Lemma ordinal_le_severity (T L : Rank) :
  ordinal L <= ordinal T <-> at_least_as_permissive T L.
Proof.
  unfold at_least_as_permissive.
  destruct T, L;
    cbv [ordinal spec_severity PanicLevel FatalLevel ErrorLevel WarnLevel
         InfoLevel DebugLevel];
    split; intros; lia.
Qed.

Lemma Is_leb (r : Rank) (logger : Logger.t) :
  Is r logger = (ordinal r <=? Logger.Level logger).
Proof. destruct r; reflexivity. Qed.

(** C3.  Each of the six predicates IsDebug, IsInfo, IsWarn, IsError,
    IsFatal, IsPanic is true exactly when the logger's threshold is at
    least as permissive as the named level, under the severity order
    Panic > Fatal > Error > Warn > Info > Debug. *)
Theorem Is_iff_threshold_permits (logger : Logger.t) (T L : Rank) :
  Logger.Level logger = ordinal T ->
  Is L logger = true <-> at_least_as_permissive T L.
Proof.
  intros HT. rewrite Is_leb, HT, N.leb_le.
  apply ordinal_le_severity.
Qed.

Lemma Is_iff_threshold_permits_witness :
  Logger.Level New = ordinal RInfo /\
  (Is RWarn New = true <-> at_least_as_permissive RInfo RWarn).
Proof.
  split; [reflexivity | apply (Is_iff_threshold_permits New RInfo RWarn); reflexivity].
Defined.

(** The six named ordinals fit the 8-bit carrier. *)
Lemma ordinal_is_uint8 (r : Rank) : is_uint8 (ordinal r).
Proof. destruct r; reflexivity. Qed.

(** IsInfo holds exactly at the thresholds Info and Debug. *)
Example IsInfo_exactly_Info_or_Debug (T : Rank) :
  Logger.IsInfo (withLevel (ordinal T)) = true <-> T = RInfo \/ T = RDebug.
Proof.
  destruct T; cbn; split; intros H;
    try discriminate H; try (destruct H as [H | H]; discriminate H); auto.
Qed.

(** A threshold whose ordinal lies beyond Debug enables every predicate. *)
Lemma Is_beyond_Debug (logger : Logger.t) (L : Rank) :
  DebugLevel <= Logger.Level logger -> Is L logger = true.
Proof.
  intros H. rewrite Is_leb, N.leb_le.
  destruct L;
    cbv [ordinal PanicLevel FatalLevel ErrorLevel WarnLevel InfoLevel
         DebugLevel] in *; lia.
Qed.

(** C4.  [New] yields a logger writing to standard output, with the text
    formatter, no hooks and threshold Info; on it IsInfo, IsWarn, IsError,
    IsFatal and IsPanic hold and IsDebug does not. *)
Theorem New_defaults :
  Logger.Out New = Stdout /\
  Logger.Formatter New = TextFormatter /\
  Logger.Hooks New = ∅ /\
  (forall l, Entry.hooksFor New l = []) /\
  Logger.Level New = InfoLevel /\
  Logger.IsInfo New = true /\
  Logger.IsWarn New = true /\
  Logger.IsError New = true /\
  Logger.IsFatal New = true /\
  Logger.IsPanic New = true /\
  Logger.IsDebug New = false.
Proof.
  repeat split.
Qed.

(** C9.  The six predicates form a chain: IsDebug implies IsInfo, IsInfo
    implies IsWarn, IsWarn implies IsError, IsError implies IsFatal and
    IsFatal implies IsPanic. *)
Theorem Is_chain (logger : Logger.t) :
  (Logger.IsDebug logger = true -> Logger.IsInfo logger = true) /\
  (Logger.IsInfo logger = true -> Logger.IsWarn logger = true) /\
  (Logger.IsWarn logger = true -> Logger.IsError logger = true) /\
  (Logger.IsError logger = true -> Logger.IsFatal logger = true) /\
  (Logger.IsFatal logger = true -> Logger.IsPanic logger = true).
Proof.
  unfold Logger.IsDebug, Logger.IsInfo, Logger.IsWarn, Logger.IsError,
    Logger.IsFatal, Logger.IsPanic,
    DebugLevel, InfoLevel, WarnLevel, ErrorLevel, FatalLevel, PanicLevel.
  rewrite !N.leb_le. repeat split; lia.
Qed.

Lemma Is_chain_witness :
  Logger.IsDebug (withLevel DebugLevel) = true /\
  Logger.IsPanic (withLevel DebugLevel) = true.
Proof.
  destruct (Is_chain (withLevel DebugLevel)) as (H1 & H2 & H3 & H4 & H5).
  split; [reflexivity |].
  apply H5, H4, H3, H2, H1. reflexivity.
Defined.

(** C10.  Whatever the threshold, IsPanic is true: PanicLevel is the least
    ordinal of the unsigned carrier. *)
Theorem IsPanic_always (logger : Logger.t) :
  Logger.IsPanic logger = true.
Proof.
  unfold Logger.IsPanic, PanicLevel. apply N.leb_le. lia.
Qed.

(** ** The aliases of logger.go *)

(** C5.  Warning, Warningf and Warningln do what Warn, Warnf and Warnln
    do, whatever the entry behind them is: the same call on the same fresh
    entry, hence the same entry, level, output and effects. *)
Theorem Warning_is_Warn {Entry Action : Type} (E : Logger.EntryAPI Entry Action)
    (logger : Logger.t) (format : string) (args : list Value) :
  Logger.Warning logger args = Logger.Warn logger args /\
  Logger.Warningf logger format args = Logger.Warnf logger format args /\
  Logger.Warningln logger args = Logger.Warnln logger args.
Proof. repeat split. Qed.

(** ** The gate, seen from the logger *)

Lemma isAtLeast_severity (L T : Rank) :
  Entry.isAtLeast (ordinal L) (ordinal T) = true <-> at_least_as_permissive T L.
Proof.
  unfold Entry.isAtLeast. rewrite N.leb_le. apply ordinal_le_severity.
Qed.

Lemma less_severe_not_permitted (L T : Rank) :
  less_severe L T <-> ~ at_least_as_permissive T L.
Proof. unfold less_severe, at_least_as_permissive. lia. Qed.

(** The gate on ordinals: the terminal call of a fresh entry is suppressed
    exactly when the ordinal of its level lies above the threshold's. *)
Lemma log_gate_ordinal (env : Entry.Env) (logger : Logger.t) (level : Level)
    (msg : string) (w : Entry.World) :
  (suppressed (Entry.log env (Entry.NewEntry logger) level msg) w
     <-> Logger.Level logger < level) /\
  (level <= Logger.Level logger ->
     goes_through env (Entry.log env (Entry.NewEntry logger) level msg)
       logger level msg w).
Proof.
  destruct (Entry.isAtLeast level (Logger.Level logger)) eqn:Hgate;
    pose proof Hgate as Hcmp; unfold Entry.isAtLeast in Hcmp.
  - apply N.leb_le in Hcmp. split.
    + split; [intros Hs | lia].
      exfalso. unfold suppressed in Hs.
      rewrite log_past_threshold in Hs by exact Hgate.
      exact (dispatch_not_suppressed env _ _ _ _ Hs).
    + intros _. unfold goes_through.
      rewrite log_past_threshold by exact Hgate.
      apply dispatch_goes_through.
  - apply N.leb_gt in Hcmp. split.
    + split; [intros _; exact Hcmp | intros _].
      apply log_below_threshold. exact Hgate.
    + lia.
Qed.

(** The same gate in the severity order of the six named levels. *)
Lemma log_gate (env : Entry.Env) (logger : Logger.t) (T L : Rank)
    (msg : string) (w : Entry.World) :
  Logger.Level logger = ordinal T ->
  (suppressed (Entry.log env (Entry.NewEntry logger) (ordinal L) msg) w
     <-> less_severe L T) /\
  (at_least_as_permissive T L ->
     goes_through env (Entry.log env (Entry.NewEntry logger) (ordinal L) msg)
       logger (ordinal L) msg w).
Proof.
  intros HT.
  destruct (log_gate_ordinal env logger (ordinal L) msg w) as [Hs Hg].
  rewrite HT in Hs, Hg. split.
  - rewrite Hs, less_severe_not_permitted, <- ordinal_le_severity. lia.
  - intros Hp. apply Hg, ordinal_le_severity, Hp.
Qed.



(** A Warn call on the default logger goes through. *)
Example Warn_on_New_goes_through :
  Logger.Warnf (api := Entry.api quiet_env) New "disk " [VInt 93] world0 =
  (Entry.Done,
   {| Entry.trace :=
        [Entry.EvFormat TextFormatter
           {| Entry.Logger := New; Entry.Data := ∅; Entry.Message := "disk 93";
              Entry.Level := WarnLevel; Entry.Time := 7 |};
         Entry.EvWrite Stdout ("disk 93" +:+ newline)];
      Entry.clock := 7 |}).
Proof. vm_compute. reflexivity. Qed.

(** ** The Print names *)

(** The Print names, method by method.  Printf and Println are never held
    back by the threshold: they format, fire the hooks of Info and write,
    with level Info.  Print is the same call as Info, and is suppressed
    exactly when Info is less severe than the threshold. *)
Theorem Print_family_gate (env : Entry.Env) (logger : Logger.t) (T : Rank)
    (format : string) (args : list Value) (w : Entry.World) :
  Logger.Level logger = ordinal T ->
  goes_through env (Logger.Printf (api := Entry.api env) logger format args)
    logger InfoLevel (Entry.Sprintf env format args) w /\
  goes_through env (Logger.Println (api := Entry.api env) logger args)
    logger InfoLevel (Entry.Sprintln env args) w /\
  Logger.Print (api := Entry.api env) logger args =
    Logger.Info (api := Entry.api env) logger args /\
  (suppressed (Logger.Print (api := Entry.api env) logger args) w
     <-> less_severe RInfo T) /\
  (at_least_as_permissive T RInfo ->
     goes_through env (Logger.Print (api := Entry.api env) logger args)
       logger InfoLevel (Entry.Sprint env args) w).
Proof.
  intros HT.
  split; [apply dispatch_goes_through|].
  split; [apply dispatch_goes_through|].
  split; [reflexivity|].
  exact (log_gate env logger T RInfo (Entry.Sprint env args) w HT).
Qed.

Lemma Print_family_gate_witness :
  Logger.Level (hooked ErrorLevel) = ordinal RError /\
  fired (Entry.trace (snd (Logger.Println (api := Entry.api quiet_env)
                             (hooked ErrorLevel) [VString "up"] world0)))
    = [(21, Entry.finalize (Entry.NewEntry (hooked ErrorLevel)) InfoLevel
              ("up" +:+ newline) world0);
       (22, Entry.finalize (Entry.NewEntry (hooked ErrorLevel)) InfoLevel
              ("up" +:+ newline) world0)].
Proof.
  split; [reflexivity|].
  destruct (Print_family_gate quiet_env (hooked ErrorLevel) RError ""
              [VString "up"] world0 eq_refl) as (_ & (new & Ht & _ & Hf & _) & _).
  rewrite Ht. exact Hf.
Defined.

(** C1.  The code at the input where it departs from the claim: on a
    logger whose threshold is Error, Print is suppressed and does not go
    through, because logger.go hands it to the Info method of the entry;
    Printf and Println on the same logger, handed to the Print names of
    the entry, are not suppressed. *)
Lemma Print_suppressed_below_threshold :
  suppressed (Logger.Print (api := Entry.api quiet_env)
                (withLevel ErrorLevel) [VString "boot"]) world0 /\
  ~ goes_through quiet_env
      (Logger.Print (api := Entry.api quiet_env) (withLevel ErrorLevel) [VString "boot"])
      (withLevel ErrorLevel) InfoLevel "boot" world0 /\
  ~ suppressed (Logger.Printf (api := Entry.api quiet_env)
                  (withLevel ErrorLevel) "boot" []) world0 /\
  ~ suppressed (Logger.Println (api := Entry.api quiet_env)
                  (withLevel ErrorLevel) [VString "boot"]) world0.
Proof.
  split; [reflexivity|]. split.
  - intros (new & Ht & Hf & _).
    cbn in Ht. destruct new; [discriminate Hf | discriminate Ht].
  - split; apply dispatch_not_suppressed.
Qed.

(** ** Delegation to the entry *)

(** Delegation, method by method.  A fresh entry is bound to the logger
    and has no fields and an empty message; WithField and WithFields are the
    like-named methods of that entry; so is every terminal method except
    Print, the Warning names standing for the Warn ones; Print is the Info
    method of the entry. *)
Theorem Logger_delegates (env : Entry.Env) (logger : Logger.t)
    (key : string) (value : Value) (fields : Fields)
    (format : string) (args : list Value) :
  Entry.Logger (Entry.NewEntry logger) = logger /\
  Entry.Data (Entry.NewEntry logger) = ∅ /\
  Entry.Message (Entry.NewEntry logger) = "" /\
  Logger.WithField (api := Entry.api env) logger key value =
    Entry.WithField (Entry.NewEntry logger) key value /\
  Logger.WithFields (api := Entry.api env) logger fields =
    Entry.WithFields (Entry.NewEntry logger) fields /\
  (forall n f, (n, f) <> (Logger.NPrint, Logger.Plain) ->
     Logger.call (api := Entry.api env) n f logger format args =
       Entry.call env n f (Entry.NewEntry logger) format args) /\
  Logger.Print (api := Entry.api env) logger args =
    Entry.Info env (Entry.NewEntry logger) args.
Proof.
  repeat split.
  intros n f Hnf. destruct n, f; try reflexivity. now destruct Hnf.
Qed.

(** The same, whatever implements the entry: each method of logger.go is
    one call on [NewEntry logger], with the arguments it was given. *)
Lemma Logger_forwards {Entry Action : Type} (E : Logger.EntryAPI Entry Action)
    (logger : Logger.t) (format : string) (args : list Value) :
  Logger.Print logger args = Logger.Entry_Info (Logger.NewEntry logger) args /\
  Logger.Printf logger format args =
    Logger.Entry_Printf (Logger.NewEntry logger) format args /\
  Logger.Println logger args = Logger.Entry_Println (Logger.NewEntry logger) args /\
  Logger.Warning logger args = Logger.Entry_Warn (Logger.NewEntry logger) args /\
  Logger.Warningf logger format args =
    Logger.Entry_Warnf (Logger.NewEntry logger) format args /\
  Logger.Warningln logger args = Logger.Entry_Warnln (Logger.NewEntry logger) args.
Proof. repeat split. Qed.

(** On a logger whose threshold is Error, the Print of the logger does
    nothing while the Print of a fresh entry writes. *)
Lemma Logger_Print_is_not_Entry_Print :
  Logger.call (api := Entry.api quiet_env) Logger.NPrint Logger.Plain
    (withLevel ErrorLevel) "" [VString "boot"] world0
  <> Entry.call quiet_env Logger.NPrint Logger.Plain
       (Entry.NewEntry (withLevel ErrorLevel)) "" [VString "boot"] world0.
Proof. vm_compute. discriminate. Qed.

(** C6.  The code at the input where it departs from the claim.  Of the
    three Print names of the logger, Printf and Println call the
    like-named function of the entry, Print calls Info; so on a logger
    whose threshold is Error, Print returns with the world untouched,
    while the Print of the fresh entry formats and writes. *)
Lemma Logger_Print_calls_Entry_Info :
  method (Logger.Print (api := recorder) (withLevel ErrorLevel) [VString "boot"])
    = EInfo /\
  method (Logger.Printf (api := recorder) (withLevel ErrorLevel) "boot" [])
    = EPrintf /\
  method (Logger.Println (api := recorder) (withLevel ErrorLevel) [VString "boot"])
    = EPrintln /\
  Logger.Print (api := Entry.api quiet_env) (withLevel ErrorLevel)
    [VString "boot"] world0 = (Entry.Done, world0) /\
  written (Entry.trace (snd (Entry.Print quiet_env
                               (Entry.NewEntry (withLevel ErrorLevel))
                               [VString "boot"] world0)))
    = [(Stdout, "boot" +:+ newline)].
Proof. vm_compute. repeat split. Qed.

(** Field attachment through the logger: the entry that comes back carries
    the field, on top of nothing. *)
Example WithField_on_New :
  Entry.Data (Logger.WithField (api := Entry.api quiet_env) New "user" (VString "alice"))
    !! "user" = Some (VString "alice") /\
  Entry.Data (Logger.WithField (api := Entry.api quiet_env) New "user" (VString "alice"))
    !! "host" = None.
Proof. split; reflexivity. Qed.

(** ** Failures stay off the call signature *)

Lemma hookEvents_reported (env : Entry.Env) (hooks : list Hook) (e : Entry.t) :
  reported (hookEvents env hooks e) =
  omap (fun h => Entry.HookError h <$> Entry.fire env h e) hooks.
Proof.
  induction hooks as [|h rest IH]; [reflexivity|].
  cbn. destruct (Entry.fire env h e); cbn; now rewrite <- IH.
Qed.

(** What the terminal call of a fresh entry leaves behind once past the
    gate: how it ends, and what the trace gained. *)
Lemma dispatch_outcome (env : Entry.Env) (logger : Logger.t) (level : Level)
    (msg : string) (w : Entry.World) :
  let e := Entry.finalize (Entry.NewEntry logger) level msg w in
  let r := Entry.dispatch env (Entry.NewEntry logger) level msg w in
  fst r = Entry.conclude level msg /\
  exists new,
    Entry.trace (snd r) = Entry.trace w ++ new /\
    formatted new = [e] /\
    fired new = map (fun h => (h, e)) (Entry.hooksFor logger level) /\
    written new = [(Logger.Out logger, rendered env logger e)] /\
    reported new = owed_reports env logger level e.
Proof.
  cbv zeta. split; [apply dispatch_control|].
  eexists. split; [apply dispatch_trace|].
  cbn [Entry.Logger Entry.NewEntry].
  unfold owed_reports, rendered, formatted, fired, written, reported.
  rewrite !omap_app.
  fold (formatted (hookEvents env (Entry.hooksFor logger level)
          (Entry.finalize (Entry.NewEntry logger) level msg w))).
  fold (fired (hookEvents env (Entry.hooksFor logger level)
          (Entry.finalize (Entry.NewEntry logger) level msg w))).
  fold (written (hookEvents env (Entry.hooksFor logger level)
          (Entry.finalize (Entry.NewEntry logger) level msg w))).
  fold (reported (hookEvents env (Entry.hooksFor logger level)
          (Entry.finalize (Entry.NewEntry logger) level msg w))).
  rewrite hookEvents_formatted, hookEvents_fired, hookEvents_written,
    hookEvents_reported.
  destruct (Entry.format env _ _); destruct (Entry.write env _ _); cbn;
    rewrite ?app_nil_r; auto.
Qed.

(** C7.  No terminal method of the logger hands an error back, and every
    failure is on the fallback channel.  A call held back by the gate
    returns with the world untouched.  A call past the gate ends by its
    name alone (Fatal ends the process, Panic unwinds with the message,
    every other name returns), whatever the formatter, the hooks and the
    sink do; the trace gains exactly the reports owed (the formatter's
    failure, one per failing hook in registration order, the sink's
    failure), every hook of the level still fires and the bytes are still
    written.  WithField and WithFields give back an entry and nothing
    else: the fresh entry of the logger with the fields attached, the same
    whatever the collaborators do. *)
Theorem failures_reported_not_returned (env : Entry.Env)
    (n : Logger.Name) (f : Logger.Flavor) (logger : Logger.t)
    (key : string) (value : Value) (fields : Fields)
    (format : string) (args : list Value) (w : Entry.World) :
  let level := ordinal (rank_of n) in
  let msg := message env f format args in
  let e := Entry.finalize (Entry.NewEntry logger) level msg w in
  let r := Logger.call (api := Entry.api env) n f logger format args w in
  (if passes n f logger
   then fst r = ending n msg /\
        exists new,
          Entry.trace (snd r) = Entry.trace w ++ new /\
          reported new = owed_reports env logger level e /\
          fired new = map (fun h => (h, e)) (Entry.hooksFor logger level) /\
          written new = [(Logger.Out logger, rendered env logger e)]
   else r = (Entry.Done, w)) /\
  Logger.WithField (api := Entry.api env) logger key value =
    {| Entry.Logger := logger; Entry.Data := {[ key := value ]};
       Entry.Message := ""; Entry.Level := PanicLevel; Entry.Time := 0 |} /\
  Logger.WithFields (api := Entry.api env) logger fields =
    {| Entry.Logger := logger; Entry.Data := fields;
       Entry.Message := ""; Entry.Level := PanicLevel; Entry.Time := 0 |}.
Proof.
  cbv zeta. split; [| split].
  - assert (Hdis : forall msg,
      fst (Entry.dispatch env (Entry.NewEntry logger) InfoLevel msg w) = Entry.Done /\
      exists new,
        Entry.trace (snd (Entry.dispatch env (Entry.NewEntry logger) InfoLevel msg w))
          = Entry.trace w ++ new /\
        reported new = owed_reports env logger InfoLevel
                         (Entry.finalize (Entry.NewEntry logger) InfoLevel msg w) /\
        fired new = map (fun h => (h, Entry.finalize (Entry.NewEntry logger)
                                        InfoLevel msg w))
                        (Entry.hooksFor logger InfoLevel) /\
        written new = [(Logger.Out logger,
                        rendered env logger
                          (Entry.finalize (Entry.NewEntry logger) InfoLevel msg w))]).
    { intros msg.
      destruct (dispatch_outcome env logger InfoLevel msg w)
        as (Hc & new & Ht & _ & Hf & Hw & Hr).
      split; [exact Hc|]. now exists new. }
    assert (Hlog : forall L msg,
      if ordinal L <=? Logger.Level logger
      then fst (Entry.log env (Entry.NewEntry logger) (ordinal L) msg w)
             = Entry.conclude (ordinal L) msg /\
           exists new,
             Entry.trace (snd (Entry.log env (Entry.NewEntry logger) (ordinal L) msg w))
               = Entry.trace w ++ new /\
             reported new = owed_reports env logger (ordinal L)
                              (Entry.finalize (Entry.NewEntry logger) (ordinal L) msg w) /\
             fired new = map (fun h => (h, Entry.finalize (Entry.NewEntry logger)
                                             (ordinal L) msg w))
                             (Entry.hooksFor logger (ordinal L)) /\
             written new = [(Logger.Out logger,
                             rendered env logger
                               (Entry.finalize (Entry.NewEntry logger) (ordinal L) msg w))]
      else Entry.log env (Entry.NewEntry logger) (ordinal L) msg w = (Entry.Done, w)).
    { intros L msg. unfold Entry.log, Entry.isAtLeast. cbn [Entry.Logger Entry.NewEntry].
      destruct (ordinal L <=? Logger.Level logger); [|reflexivity].
      destruct (dispatch_outcome env logger (ordinal L) msg w)
        as (Hc & new & Ht & _ & Hf & Hw & Hr).
      split; [exact Hc|]. now exists new. }
    destruct n, f;
      first [ exact (Hdis (message env Logger.Formatted format args))
            | exact (Hdis (message env Logger.Line format args))
            | exact (Hlog (rank_of Logger.NDebug) _)
            | exact (Hlog (rank_of Logger.NInfo) _)
            | exact (Hlog (rank_of Logger.NWarn) _)
            | exact (Hlog (rank_of Logger.NError) _)
            | exact (Hlog (rank_of Logger.NFatal) _)
            | exact (Hlog (rank_of Logger.NPanic) _) ].
  - reflexivity.
  - unfold Logger.WithFields. cbn [Logger.Entry_WithFields Logger.NewEntry Entry.api].
    unfold Entry.WithFields, Entry.NewEntry. cbn [Entry.Logger Entry.Data
      Entry.Message Entry.Level Entry.Time].
    now rewrite (right_id_L ∅ (∪) fields).
Qed.

(** With every collaborator failing, an Error call still returns, and the
    three failures are on the fallback channel. *)
Example Error_with_failing_collaborators :
  let r := Logger.Error (api := Entry.api failing_env) (hooked InfoLevel)
             [VString "boom"] world0 in
  fst r = Entry.Done /\
  reported (Entry.trace (snd r)) =
    [Entry.FormatError "cannot format"; Entry.HookError 11 "hook down";
     Entry.WriteError "sink closed"] /\
  written (Entry.trace (snd r)) = [(Stderr, "boom")].
Proof. vm_compute. repeat split. Qed.

(** Fatal ends the process after the write, Panic unwinds with the
    message. *)
Example Fatal_and_Panic_end_the_call :
  fst (Logger.Fatal (api := Entry.api quiet_env) New [VString "gone"] world0)
    = Entry.Exited /\
  written (Entry.trace (snd (Logger.Fatal (api := Entry.api quiet_env) New
                               [VString "gone"] world0)))
    = [(Stdout, "gone" +:+ newline)] /\
  fst (Logger.Panicf (api := Entry.api quiet_env) New "no " [VString "way"] world0)
    = Entry.Unwound "no way".
Proof. vm_compute. repeat split. Qed.

(** ** More on the threshold predicates *)

(** X1.  Raising the ordinal of the threshold (making it less severe)
    never switches a predicate off: what holds on a logger holds on every
    logger whose threshold ordinal is at least as large. *)
Theorem Is_monotone (logger1 logger2 : Logger.t) (L : Rank) :
  Logger.Level logger1 <= Logger.Level logger2 ->
  Is L logger1 = true -> Is L logger2 = true.
Proof.
  rewrite !Is_leb, !N.leb_le. lia.
Qed.

Lemma Is_monotone_witness :
  Logger.Level New <= Logger.Level (withLevel DebugLevel) /\
  Is RInfo New = true /\
  Is RInfo (withLevel DebugLevel) = true.
Proof.
  assert (Hle : Logger.Level New <= Logger.Level (withLevel DebugLevel))
    by (cbv; discriminate).
  split; [exact Hle|]. split; [reflexivity|].
  exact (Is_monotone New (withLevel DebugLevel) RInfo Hle eq_refl).
Defined.

(** X2.  A threshold whose ordinal is Debug's or larger, one of the six
    named values or not, switches all six predicates on: beyond Debug the
    logger answers as it does at Debug. *)
Theorem Is_saturates_at_Debug (logger : Logger.t) (L : Rank) :
  DebugLevel <= Logger.Level logger ->
  Is L logger = true /\ Is L logger = Is L (withLevel DebugLevel).
Proof.
  intros H. rewrite (Is_beyond_Debug logger L H).
  split; [reflexivity | destruct L; reflexivity].
Qed.

Lemma Is_saturates_at_Debug_witness :
  is_uint8 200 /\
  DebugLevel <= Logger.Level (withLevel 200) /\
  Is RDebug (withLevel 200) = true.
Proof.
  assert (Hle : DebugLevel <= Logger.Level (withLevel 200)) by (cbv; discriminate).
  split; [reflexivity|]. split; [exact Hle|].
  exact (proj1 (Is_saturates_at_Debug (withLevel 200) RDebug Hle)).
Defined.

(** The predicates see the threshold only up to Debug's ordinal. *)
Lemma Is_capped (logger : Logger.t) (L : Rank) :
  Is L logger = Is L (withLevel (N.min (Logger.Level logger) DebugLevel)).
Proof.
  rewrite !Is_leb. cbn [Logger.Level withLevel].
  apply eq_iff_eq_true. rewrite !N.leb_le.
  destruct L;
    cbv [ordinal PanicLevel FatalLevel ErrorLevel WarnLevel InfoLevel DebugLevel];
    lia.
Qed.

(** X3.  Whatever value the threshold holds, the six predicates answer as
    they do at exactly one of the six named levels. *)
Theorem Is_as_at_one_named_level (logger : Logger.t) :
  exists T : Rank,
    (forall L, Is L logger = Is L (withLevel (ordinal T))) /\
    (forall T', (forall L, Is L logger = Is L (withLevel (ordinal T'))) -> T' = T).
Proof.
  assert (Hcases : exists T, N.min (Logger.Level logger) DebugLevel = ordinal T).
  { unfold DebugLevel.
    assert (H : N.min (Logger.Level logger) 5 = 0 \/ N.min (Logger.Level logger) 5 = 1 \/
                N.min (Logger.Level logger) 5 = 2 \/ N.min (Logger.Level logger) 5 = 3 \/
                N.min (Logger.Level logger) 5 = 4 \/ N.min (Logger.Level logger) 5 = 5)
      by lia.
    destruct H as [H | [H | [H | [H | [H | H]]]]];
      [exists RPanic | exists RFatal | exists RError | exists RWarn
      | exists RInfo | exists RDebug]; exact H. }
  destruct Hcases as [T HT]. exists T. split.
  - intros L. rewrite (Is_capped logger L), HT. reflexivity.
  - intros T' H'.
    assert (Hsame : forall L, Is L (withLevel (ordinal T')) = Is L (withLevel (ordinal T))).
    { intros L. rewrite <- H', (Is_capped logger L), HT. reflexivity. }
    pose proof (Hsame RFatal) as H1. pose proof (Hsame RError) as H2.
    pose proof (Hsame RWarn) as H3. pose proof (Hsame RInfo) as H4.
    pose proof (Hsame RDebug) as H5.
    destruct T, T'; try reflexivity; vm_compute in H1, H2, H3, H4, H5;
      discriminate.
Qed.

(** ** Which methods of the logger are the same method *)

(** X4.  Two terminal methods of the logger do the same on every
    implementation of the entry exactly when they are aliases: same
    flavour, and the same name, or Warn and Warning, or (plain flavour
    only) Info and Print.  So Print is Info, while Printf and Println are
    not Infof and Infoln unless the entry makes them so. *)
Theorem same_on_every_entry_iff_aliases
    (n1 : Logger.Name) (f1 : Logger.Flavor) (n2 : Logger.Name) (f2 : Logger.Flavor) :
  (forall (Entry Action : Type) (E : Logger.EntryAPI Entry Action)
          (logger : Logger.t) (format : string) (args : list Value),
     Logger.call n1 f1 logger format args = Logger.call n2 f2 logger format args)
  <-> aliases n1 f1 n2 f2.
Proof.
  split.
  - intros H.
    specialize (H Logger.t Call recorder New "" []).
    apply (f_equal method) in H.
    unfold aliases.
    destruct n1, f1, n2, f2; cbn in H; try discriminate H;
      (split; [reflexivity|]); intuition congruence.
  - intros (<- & Hn) Entry Action E logger format args.
    destruct Hn as [<- | [[-> ->] | [[-> ->] | (-> & [[-> ->] | [-> ->]])]]];
      try reflexivity; destruct f1; reflexivity.
Qed.

(** On the recording entry: each method makes its call on the entry of the
    logger it was invoked on, hands over the arguments as they came, and
    hands over the format string in the formatted flavour only. *)
Lemma call_hands_over (n : Logger.Name) (f : Logger.Flavor) (logger : Logger.t)
    (format : string) (args : list Value) :
  let c := Logger.call (api := recorder) n f logger format args in
  receiver c = logger /\
  arguments c = args /\
  template c = match f with Logger.Formatted => Some format | _ => None end.
Proof. destruct n, f; repeat split. Qed.
